(** * OmniSec frontend: the dev-server proxy configuration

    A shallow embedding of [frontend/vite.config.js]:

    <<
    export default defineConfig({
      plugins: [react()],
      server: {
        port: 3000,
        proxy: {
          "/api": {
            target: "http://localhost:8000",
            changeOrigin: true,
            rewrite: (path) => path.replace(/^\/api/, ""),
          },
        },
      },
    });
    >>

    The file is organised as follows.
    - [JS]: the fragment of ECMAScript strings and regular expressions that
      the [rewrite] callback runs: pattern matching of a flag-carrying
      [RegExp] object with its [lastIndex] slot, [RegExpBuiltinExec] and
      [String.prototype.replace] with a regular expression and a
      replacement template.
    - [Vite]: the shape of the configuration object.
    - the configuration itself: [rewrite], [config].
    - [Router]: the request router the configuration is handed to.
    - the properties. *)

From Stdlib Require Import Strings.String Strings.Ascii Bool Arith Lia List ZArith.
From stdpp Require Import gmap strings.
Import ListNotations.

Local Open Scope string_scope.
Local Open Scope bool_scope.

(* ===================================================================== *)
(** * ECMAScript strings and regular expressions                          *)
(* ===================================================================== *)

Module JS.

(** Terms of a pattern.  The literal [/^\/api/] is a sequence of the
    assertion [^] and of pattern characters ([\/] is the identity escape
    of [/]); it has no group, no alternative and no quantifier.  The
    characters of a [string] stand for the code units of a JavaScript
    string. *)
Inductive Term : Type :=
| AssertStart
| PatternChar (c : ascii).

Record Flags : Type := mkFlags
  { global : bool;
    multiline : bool;
    sticky : bool }.

(** A RegExp object: the compiled pattern, the flags and the mutable
    [lastIndex] property. *)
Record RegExp : Type := mkRegExp
  { source : list Term;
    flags : Flags;
    lastIndex : nat }.

Definition set_lastIndex (R : RegExp) (i : nat) : RegExp :=
  {| source := source R; flags := flags R; lastIndex := i |}.

Definition noFlags : Flags :=
  {| global := false; multiline := false; sticky := false |}.

(** Evaluating a regular expression literal yields an object whose
    [lastIndex] is 0. *)
Definition RegExpLiteral (pat : list Term) (f : Flags) : RegExp :=
  {| source := pat; flags := f; lastIndex := 0 |}.

Record MatchResult : Type := mkMatch
  { index : nat;
    endIndex : nat }.

Definition isLineTerminator (c : ascii) : bool :=
  Ascii.eqb c "010" || Ascii.eqb c "013".

(** The matcher of a sequence of terms, run at position [e] of [Input];
    it answers the end index of the match, or [None] on failure. *)
Fixpoint matchTerms (ml : bool) (pat : list Term) (Input : string) (e : nat)
  : option nat :=
  match pat with
  | [] => Some e
  | AssertStart :: pat' =>
      let atStart :=
        match e with
        | O => true
        | S e' =>
            ml && match String.get e' Input with
                  | Some c => isLineTerminator c
                  | None => false
                  end
        end in
      if atStart then matchTerms ml pat' Input e else None
  | PatternChar c :: pat' =>
      match String.get e Input with
      | Some ch => if Ascii.eqb ch c then matchTerms ml pat' Input (S e) else None
      | None => None
      end
  end.

Definition usesLastIndex (R : RegExp) : bool :=
  global (flags R) || sticky (flags R).

(** The search loop of [RegExpBuiltinExec].  [fuel] is the loop's variant
    [length S + 1 - lastIndex]: it is 0 exactly when [lastIndex] has gone
    past the end of the string, which is where the loop gives up. *)
Fixpoint execLoop (fuel : nat) (R : RegExp) (S : string) (li : nat)
  : option MatchResult * RegExp :=
  match fuel with
  | O => (None, if usesLastIndex R then set_lastIndex R 0 else R)
  | Datatypes.S fuel' =>
      match matchTerms (multiline (flags R)) (source R) S li with
      | Some e =>
          (Some {| index := li; endIndex := e |},
           if usesLastIndex R then set_lastIndex R e else R)
      | None =>
          if sticky (flags R) then (None, set_lastIndex R 0)
          else execLoop fuel' R S (Datatypes.S li)
      end
  end.

Definition RegExpBuiltinExec (R : RegExp) (S : string)
  : option MatchResult * RegExp :=
  let li := if usesLastIndex R then lastIndex R else 0 in
  execLoop (String.length S + 1 - li) R S li.

(** [GetSubstitution] for a pattern without capture groups: [$$], [$&],
    [$`] and [$'] are expanded, every other character of the template,
    a lone [$] too, stands for itself. *)
Fixpoint GetSubstitution (matched before after template : string) : string :=
  match template with
  | EmptyString => EmptyString
  | String c t' =>
      if Ascii.eqb c "$" then
        match t' with
        | EmptyString => String c EmptyString
        | String d t'' =>
            if Ascii.eqb d "$" then String "$" (GetSubstitution matched before after t'')
            else if Ascii.eqb d "&" then matched ++ GetSubstitution matched before after t''
            else if Ascii.eqb d "`" then before ++ GetSubstitution matched before after t''
            else if Ascii.eqb d "'" then after ++ GetSubstitution matched before after t''
            else String c (GetSubstitution matched before after t')
        end
      else String c (GetSubstitution matched before after t')
  end.

(** Collecting the matches of a global pattern: after an empty match
    [lastIndex] is advanced by one. *)
Fixpoint execAll (fuel : nat) (R : RegExp) (S : string)
  : list MatchResult * RegExp :=
  match fuel with
  | O => ([], R)
  | Datatypes.S fuel' =>
      match RegExpBuiltinExec R S with
      | (None, R1) => ([], R1)
      | (Some m, R1) =>
          let R2 := if Nat.eqb (endIndex m) (index m)
                    then set_lastIndex R1 (Datatypes.S (lastIndex R1)) else R1 in
          let (ms, R3) := execAll fuel' R2 S in
          (m :: ms, R3)
      end
  end.

(** The second half of [RegExp.prototype[@@replace]]: the pieces of [S]
    between the matches, each match replaced by its substitution. *)
Fixpoint assemble (S template : string) (results : list MatchResult)
         (nextSourcePosition : nat) (accumulated : string) : string :=
  match results with
  | [] =>
      accumulated ++
      substring nextSourcePosition (String.length S - nextSourcePosition) S
  | m :: results' =>
      let position := Nat.min (index m) (String.length S) in
      let matchLength := endIndex m - index m in
      let matched := substring (index m) matchLength S in
      let tailPos := position + matchLength in
      let replacement :=
        GetSubstitution matched (substring 0 position S)
          (substring tailPos (String.length S - tailPos) S) template in
      if Nat.leb nextSourcePosition position then
        assemble S template results' tailPos
          (accumulated ++
           substring nextSourcePosition (position - nextSourcePosition) S ++
           replacement)
      else assemble S template results' nextSourcePosition accumulated
  end.

Definition RegExpReplace (R : RegExp) (S replaceValue : string)
  : string * RegExp :=
  if global (flags R) then
    let (results, R1) := execAll (String.length S + 2) (set_lastIndex R 0) S in
    (assemble S replaceValue results 0 EmptyString, R1)
  else
    match RegExpBuiltinExec R S with
    | (None, R1) => (assemble S replaceValue [] 0 EmptyString, R1)
    | (Some m, R1) => (assemble S replaceValue [m] 0 EmptyString, R1)
    end.

(** [S.replace(searchValue, replaceValue)] with a RegExp [searchValue]
    and a string [replaceValue]; the RegExp object is returned as the
    call leaves it. *)
Definition String_replace (S : string) (searchValue : RegExp)
           (replaceValue : string) : string * RegExp :=
  RegExpReplace searchValue S replaceValue.

(** [S.startsWith(searchString)]. *)
Fixpoint startsWith (S searchString : string) {struct searchString} : bool :=
  match searchString with
  | EmptyString => true
  | String c search' =>
      match S with
      | String d S' => Ascii.eqb d c && startsWith S' search'
      | EmptyString => false
      end
  end.

End JS.

(* ===================================================================== *)
(** * The configuration                                                   *)
(* ===================================================================== *)

(** The pattern of the literal [/^\/api/], which carries no flag. *)
Definition api_pattern : list JS.Term :=
  [JS.AssertStart; JS.PatternChar "/"; JS.PatternChar "a";
   JS.PatternChar "p"; JS.PatternChar "i"].

(** [(path) => path.replace(/^\/api/, "")] *)
Definition rewrite (path : string) : string :=
  fst (JS.String_replace path (JS.RegExpLiteral api_pattern JS.noFlags) "").

(** The shape of the object handed to [defineConfig]. *)
Module Vite.

(** [react()], the only plugin the configuration lists. *)
Inductive Plugin : Type := react.

Record ProxyOptions : Type :=
  { target : string;
    changeOrigin : bool;
    rewrite : string -> string }.

(** [proxy] is an object literal: its keys in the order they are written. *)
Record ServerOptions : Type :=
  { port : Z;
    proxy : list (string * ProxyOptions) }.

Record UserConfig : Type :=
  { plugins : list Plugin;
    server : ServerOptions }.

(** [defineConfig] hands its argument back: it only exists to give the
    object literal a type. *)
Definition defineConfig (c : UserConfig) : UserConfig := c.

End Vite.

(** [export default defineConfig({ ... })] *)
Definition config : Vite.UserConfig :=
  Vite.defineConfig
    {| Vite.plugins := [Vite.react];
       Vite.server :=
         {| Vite.port := 3000;
            Vite.proxy :=
              [("/api",
                {| Vite.target := "http://localhost:8000";
                   Vite.changeOrigin := true;
                   Vite.rewrite := rewrite |})] |} |}.

(* ===================================================================== *)
(** * The request router                                                  *)
(* ===================================================================== *)

Module Router.

(** Modelled from the spec: the [ProxyRule] entity of the data model
    (section 3); the router that consumes the configuration is the
    development server's and is not part of the source file. *)
Record ProxyRule : Type :=
  { match_prefix : string;
    target_origin : string;
    change_origin : bool;
    rewrite_fn : string -> string }.

(** Modelled from the spec: the router's input (section 4.1), "an HTTP
    request with a path, method, headers, and body".  [path] is the
    request path as it is received and as it is given to [rewrite_fn]:
    the query string, when there is one, is its part from the first [?]
    on. *)
Record Request : Type :=
  { method : string;
    path : string;
    headers : gmap string string;
    body : string }.

(** Modelled from the spec: the two ways a request is disposed of
    (section 4.1): "On match" an outbound request is forwarded to the
    target origin, "On no match" the request is handled by the local
    server. *)
Inductive Outcome : Type :=
| ServeLocally (req : Request)
| Forward (origin : string) (outbound : Request).

(** Modelled from the spec: the path proper of a request path, the part
    before its query string (section 4.1 names the query string apart from
    the path). *)
Fixpoint pathname (p : string) : string :=
  match p with
  | EmptyString => EmptyString
  | String c p' => if Ascii.eqb c "?" then EmptyString else String c (pathname p')
  end.

(** Modelled from the spec: the "query string" of section 4.1, the part of
    a request path from the first [?] on. *)
Fixpoint search (p : string) : string :=
  match p with
  | EmptyString => EmptyString
  | String c p' => if Ascii.eqb c "?" then p else search p'
  end.

(** Modelled from the spec: an origin is written [scheme://host:port]
    (section 3); this is what follows the first [://] after a scheme. *)
Fixpoint after_scheme (o : string) : option string :=
  match o with
  | EmptyString => None
  | String _ o' =>
      if JS.startsWith o' "://" then Some (substring 3 (String.length o' - 3) o')
      else after_scheme o'
  end.

(** Modelled from the spec: the [host:port] of an origin (section 3), up to
    the first [/] after the scheme. *)
Fixpoint authority (s : string) : string :=
  match s with
  | EmptyString => EmptyString
  | String c s' => if Ascii.eqb c "/" then EmptyString else String c (authority s')
  end.

(** Modelled from the spec: "the host portion of [target_origin]", for an
    origin written [scheme://host:port] (section 3); an origin that is not
    of that form has none (section 7, configuration errors). *)
Definition host_of_origin (o : string) : option string :=
  match after_scheme o with
  | None => None
  | Some rest =>
      match authority rest with
      | EmptyString => None
      | h => Some h
      end
  end.

(** Modelled from the spec: a rule together with "the host portion of
    [target_origin]" (section 4.1, step 3), resolved at startup. *)
Record Route : Type :=
  { rule : ProxyRule;
    upstream_host : string }.

(** Modelled from the spec: the configuration surface of section 6, the
    listening port and the proxy rules; the server has no other state
    (section 4.1: "no persisted state"). *)
Record Server : Type :=
  { listening_port : Z;
    routes : list Route }.

(** Modelled from the spec: the configuration surface (section 6), one
    [ProxyRule] per entry of the proxy table. *)
Definition rule_of_entry (e : string * Vite.ProxyOptions) : ProxyRule :=
  {| match_prefix := fst e;
     target_origin := Vite.target (snd e);
     change_origin := Vite.changeOrigin (snd e);
     rewrite_fn := Vite.rewrite (snd e) |}.

(** Modelled from the spec: a malformed [target_origin] is a fatal startup
    error (section 7). *)
Fixpoint resolve (rs : list ProxyRule) : option (list Route) :=
  match rs with
  | [] => Some []
  | r :: rs' =>
      match host_of_origin (target_origin r), resolve rs' with
      | Some h, Some rts => Some ({| rule := r; upstream_host := h |} :: rts)
      | _, _ => None
      end
  end.

(** Modelled from the spec: the lifecycle (section 3) and the
    configuration errors (section 7): the server is built once, at
    startup, from the static configuration, and does not start when a
    target origin is malformed. *)
Definition start (c : Vite.UserConfig) : option Server :=
  match resolve (map rule_of_entry (Vite.proxy (Vite.server c))) with
  | Some rts =>
      Some {| listening_port := Vite.port (Vite.server c); routes := rts |}
  | None => None
  end.

(** Modelled from the spec: the "On match" steps 1 to 3 of section 4.1:
    the outbound request has the rewritten path, the method, headers and
    body of the inbound one, and, under [change_origin], the host of the
    target origin as its [Host] header. *)
Definition outbound_request (rt : Route) (req : Request) : Request :=
  {| method := method req;
     path := rewrite_fn (rule rt) (path req);
     headers :=
       if change_origin (rule rt)
       then <["Host" := upstream_host rt]> (headers req)
       else headers req;
     body := body req |}.

(** Modelled from the spec: the match policy of section 4.1, "a simple
    string-prefix test on the unmodified path", rule by rule; a request
    that matches no rule is served locally. *)
Fixpoint dispatch (rts : list Route) (req : Request) : Outcome :=
  match rts with
  | [] => ServeLocally req
  | rt :: rts' =>
      if JS.startsWith (path req) (match_prefix (rule rt))
      then Forward (target_origin (rule rt)) (outbound_request rt req)
      else dispatch rts' req
  end.

(** Modelled from the spec: one request is one step of the server
    (section 4.1: "a stateless, per-request pure dispatch function"). *)
Definition handle (srv : Server) (req : Request) : Outcome * Server :=
  (dispatch (routes srv) req, srv).

End Router.

(** The server that [config] starts. *)
Definition dev_server : Router.Server :=
  {| Router.listening_port := 3000;
     Router.routes :=
       [{| Router.rule :=
             {| Router.match_prefix := "/api";
                Router.target_origin := "http://localhost:8000";
                Router.change_origin := true;
                Router.rewrite_fn := rewrite |};
           Router.upstream_host := "localhost:8000" |}] |}.

(* ===================================================================== *)
(** * Properties                                                          *)
(* ===================================================================== *)

(** ** Examples *)

Example start_config : Router.start config = Some dev_server.
Proof. reflexivity. Qed.

Example host_of_target : Router.host_of_origin "http://localhost:8000" = Some "localhost:8000".
Proof. reflexivity. Qed.

Example host_of_malformed : Router.host_of_origin "localhost:8000" = None.
Proof. reflexivity. Qed.

Example rewrite_users : rewrite "/api/users" = "/users".
Proof. reflexivity. Qed.

Example rewrite_static : rewrite "/static/logo.png" = "/static/logo.png".
Proof. reflexivity. Qed.

Example global_replace_all :
  fst (JS.String_replace "a-a-a"
         (JS.RegExpLiteral [JS.PatternChar "a"] (JS.mkFlags true false false)) "[$&]")
  = "[a]-[a]-[a]".
Proof. reflexivity. Qed.

Example multiline_anchor :
  fst (JS.String_replace (String "x" (String "010" "ab"))
         (JS.RegExpLiteral [JS.AssertStart; JS.PatternChar "a"]
            (JS.mkFlags false true false)) "")
  = String "x" (String "010" "b").
Proof. reflexivity. Qed.

(** A sticky pattern does read and write [lastIndex]: the same call gives
    another string from another [lastIndex]. *)
Example sticky_reads_lastIndex :
  JS.String_replace "ba"
    (JS.mkRegExp [JS.PatternChar "a"] (JS.mkFlags false false true) 0) ""
  = ("ba", JS.mkRegExp [JS.PatternChar "a"] (JS.mkFlags false false true) 0) /\
  JS.String_replace "ba"
    (JS.mkRegExp [JS.PatternChar "a"] (JS.mkFlags false false true) 1) ""
  = ("b", JS.mkRegExp [JS.PatternChar "a"] (JS.mkFlags false false true) 2).
Proof. split; reflexivity. Qed.

(** ** Strings *)

Lemma substring_all (s : string) : substring 0 (String.length s) s = s.
Proof. induction s as [|c s IH]; simpl; [reflexivity | now rewrite IH]. Qed.

Lemma append_cons (c : ascii) (s t : string) : String c s ++ t = String c (s ++ t).
Proof. reflexivity. Qed.

(** [startsWith] decides being of the form [searchString ++ rest]. *)
Lemma startsWith_spec (S searchString : string) :
  JS.startsWith S searchString = true <-> exists rest, S = searchString ++ rest.
Proof.
  revert S. induction searchString as [|c search' IH]; intros S; simpl.
  - split; [intros _; now exists S | reflexivity].
  - destruct S as [|d S'].
    + split; [discriminate | intros [rest H]; discriminate H].
    + rewrite andb_true_iff, IH, Ascii.eqb_eq. split.
      * intros [-> [rest ->]]. now exists rest.
      * intros [rest H]. injection H as -> ->. split; [reflexivity | now exists rest].
Qed.

Lemma startsWith_false (S searchString : string) :
  JS.startsWith S searchString = false <-> forall rest, S <> searchString ++ rest.
Proof.
  split.
  - intros H rest E.
    assert (T : JS.startsWith S searchString = true)
      by (apply startsWith_spec; now exists rest).
    congruence.
  - intros H. destruct (JS.startsWith S searchString) eqn:E; [|reflexivity].
    apply startsWith_spec in E as [rest E]. now destruct (H rest).
Qed.

(** ** The pattern [/^\/api/] *)

Section ApiPattern.

(** The RegExp object of the literal, whatever its [lastIndex] holds. *)
Variable li : nat.

Let R : JS.RegExp := JS.mkRegExp api_pattern JS.noFlags li.

(** Past position 0 the assertion [^] fails, so the search loop finds
    nothing there and leaves the object as it is. *)
Lemma execLoop_past_start (fuel : nat) (S : string) (i : nat) :
  JS.execLoop fuel R S (Datatypes.S i) = (None, R).
Proof.
  revert i. induction fuel as [|fuel IH]; intros i; simpl.
  - reflexivity.
  - apply IH.
Qed.

(** At position 0 the pattern matches exactly the strings that start
    with [/api], and the match is their first four characters. *)
Lemma matchTerms_api (S : string) :
  JS.matchTerms false api_pattern S 0 =
  if JS.startsWith S "/api" then Some 4 else None.
Proof.
  unfold api_pattern.
  destruct S as [|c0 [|c1 [|c2 [|c3 S]]]]; simpl;
    repeat match goal with
           | |- context [Ascii.eqb ?a ?b] => destruct (Ascii.eqb a b); simpl
           end; reflexivity.
Qed.

Lemma exec_api (S : string) :
  JS.RegExpBuiltinExec R S =
  (if JS.startsWith S "/api" then Some (JS.mkMatch 0 4) else None, R).
Proof.
  unfold JS.RegExpBuiltinExec.
  change (JS.usesLastIndex R) with false. cbv iota.
  replace (String.length S + 1 - 0) with (Datatypes.S (String.length S)) by lia.
  cbn [JS.execLoop].
  change (JS.multiline (JS.flags R)) with false.
  change (JS.source R) with api_pattern.
  change (JS.sticky (JS.flags R)) with false.
  change (JS.usesLastIndex R) with false. cbv iota.
  rewrite matchTerms_api.
  destruct (JS.startsWith S "/api"); [reflexivity | apply execLoop_past_start].
Qed.

Lemma replace_api_match (rest : string) :
  JS.String_replace ("/api" ++ rest) R "" = (rest, R).
Proof.
  unfold JS.String_replace, JS.RegExpReplace.
  change (JS.global (JS.flags R)) with false. cbv iota.
  rewrite exec_api.
  replace (JS.startsWith ("/api" ++ rest) "/api") with true
    by (symmetry; apply startsWith_spec; now exists rest).
  f_equal. cbn.
  change ("/api" ++ rest) with (String "/" (String "a" (String "p" (String "i" rest)))).
  cbn [substring String.length Nat.sub].
  now rewrite Nat.sub_0_r, substring_all.
Qed.

Lemma replace_api_no_match (S : string) :
  JS.startsWith S "/api" = false -> JS.String_replace S R "" = (S, R).
Proof.
  intros H. unfold JS.String_replace, JS.RegExpReplace.
  change (JS.global (JS.flags R)) with false. cbv iota.
  rewrite exec_api, H. f_equal. simpl.
  rewrite Nat.sub_0_r. apply substring_all.
Qed.

End ApiPattern.

Lemma rewrite_match (rest : string) : rewrite ("/api" ++ rest) = rest.
Proof. unfold rewrite, JS.RegExpLiteral. now rewrite replace_api_match. Qed.

Lemma rewrite_no_match (p : string) :
  JS.startsWith p "/api" = false -> rewrite p = p.
Proof.
  intros H. unfold rewrite, JS.RegExpLiteral. now rewrite replace_api_no_match.
Qed.

(** ** Paths and query strings *)

Lemma pathname_search (p : string) : Router.pathname p ++ Router.search p = p.
Proof.
  induction p as [|c p IH]; simpl; [reflexivity|].
  destruct (Ascii.eqb c "?"); [reflexivity | now rewrite append_cons, IH].
Qed.

Lemma api_cons (rest : string) :
  "/api" ++ rest = String "/" (String "a" (String "p" (String "i" rest))).
Proof. reflexivity. Qed.

Lemma search_api (rest : string) : Router.search ("/api" ++ rest) = Router.search rest.
Proof. rewrite api_cons. reflexivity. Qed.

Lemma pathname_api (rest : string) :
  Router.pathname ("/api" ++ rest) = "/api" ++ Router.pathname rest.
Proof. rewrite !api_cons. reflexivity. Qed.

(** ** The started server *)

Lemma start_config_inv (srv : Router.Server) :
  Router.start config = Some srv -> srv = dev_server.
Proof. intros H. change (Some dev_server = Some srv) in H. congruence. Qed.

Lemma dispatch_match (req : Router.Request) :
  JS.startsWith (Router.path req) "/api" = true ->
  Router.dispatch (Router.routes dev_server) req =
  Router.Forward "http://localhost:8000"
    {| Router.method := Router.method req;
       Router.path := rewrite (Router.path req);
       Router.headers := <["Host" := "localhost:8000"]> (Router.headers req);
       Router.body := Router.body req |}.
Proof.
  intros H. unfold dev_server.
  cbn [Router.dispatch Router.routes Router.rule Router.match_prefix].
  now rewrite H.
Qed.

Lemma dispatch_no_match (req : Router.Request) :
  JS.startsWith (Router.path req) "/api" = false ->
  Router.dispatch (Router.routes dev_server) req = Router.ServeLocally req.
Proof.
  intros H. unfold dev_server.
  cbn [Router.dispatch Router.routes Router.rule Router.match_prefix].
  now rewrite H.
Qed.

(** ** The rewrite callback *)

(** C1: for every string [s], [rewrite] maps ["/api" ++ s] to [s]: the
    leading [/api] is removed, once.  In particular [/api/users] becomes
    [/users], [/api/items/42] becomes [/items/42], and a second [/api]
    further in the path stays: [/api/api/x] becomes [/api/x]. *)
Theorem rewrite_strips_leading_api :
  (forall s : string, rewrite ("/api" ++ s) = s) /\
  rewrite "/api/users" = "/users" /\
  rewrite "/api/items/42" = "/items/42" /\
  rewrite "/api/api/x" = "/api/x".
Proof.
  split; [exact rewrite_match|].
  repeat split; reflexivity.
Qed.

(** C2: [rewrite] answers a string on every string, and a path that does
    not start with [/api] (as a raw string prefix) is answered as it is. *)
Theorem rewrite_total_identity_off_prefix (p : string) :
  (exists q : string, rewrite p = q) /\
  ((forall s : string, p <> "/api" ++ s) -> rewrite p = p).
Proof.
  split.
  - now exists (rewrite p).
  - intros H. apply rewrite_no_match. now apply startsWith_false.
Qed.

Lemma rewrite_total_identity_off_prefix_witness :
  rewrite "/static/logo.png" = "/static/logo.png".
Proof.
  apply (proj2 (rewrite_total_identity_off_prefix "/static/logo.png")).
  intros s H. discriminate H.
Defined.

(** C7: [rewrite] is deterministic and reads no state.  The one piece of
    mutable state its body touches is the RegExp object of the literal:
    whatever that object's [lastIndex] holds, the replacement yields the
    same string, the value of [rewrite], and leaves the object as it
    was. *)
Theorem rewrite_deterministic_stateless (p : string) (li1 li2 : nat) :
  fst (JS.String_replace p (JS.mkRegExp api_pattern JS.noFlags li1) "") =
  fst (JS.String_replace p (JS.mkRegExp api_pattern JS.noFlags li2) "") /\
  fst (JS.String_replace p (JS.mkRegExp api_pattern JS.noFlags li1) "") = rewrite p /\
  snd (JS.String_replace p (JS.mkRegExp api_pattern JS.noFlags li1) "") =
  JS.mkRegExp api_pattern JS.noFlags li1.
Proof.
  assert (E : forall li,
             JS.String_replace p (JS.mkRegExp api_pattern JS.noFlags li) "" =
             (rewrite p, JS.mkRegExp api_pattern JS.noFlags li)).
  { intros li. destruct (JS.startsWith p "/api") eqn:Hp.
    - apply startsWith_spec in Hp as [rest ->].
      now rewrite replace_api_match, rewrite_match.
    - now rewrite replace_api_no_match, rewrite_no_match. }
  rewrite !E. repeat split.
Qed.

(** C9: the prefix is a raw string prefix, not a path segment: [/api] is
    stripped whatever character follows it, so [/apiary] becomes [ary] and
    [/apiville] becomes [ville]. *)
Theorem rewrite_raw_prefix :
  (forall (c : ascii) (s : string), rewrite ("/api" ++ String c s) = String c s) /\
  rewrite "/apiary" = "ary" /\
  rewrite "/apiville" = "ville".
Proof.
  split; [intros c s; apply rewrite_match|].
  split; reflexivity.
Qed.

(** C10: on the path that is exactly the prefix, [rewrite] answers the
    empty string, not [/]; the request for [/api] is forwarded upstream
    with the empty path. *)
Theorem rewrite_exact_prefix_empty :
  rewrite "/api" = "" /\
  rewrite "/api" <> "/" /\
  Router.start config = Some dev_server /\
  forall (m b : string) (h : gmap string string),
    Router.dispatch (Router.routes dev_server)
      {| Router.method := m; Router.path := "/api";
         Router.headers := h; Router.body := b |} =
    Router.Forward "http://localhost:8000"
      {| Router.method := m; Router.path := "";
         Router.headers := <["Host" := "localhost:8000"]> h; Router.body := b |}.
Proof.
  split; [reflexivity|].
  split; [discriminate|].
  split; [reflexivity|].
  intros m b h. now rewrite dispatch_match.
Qed.

(** ** The router under the configuration *)

(** C3: a request whose path does not start with [/api] is handed to the
    local server as it came: no rewriting, nothing forwarded to the
    upstream origin, and local handling is its outcome. *)
Theorem unmatched_request_served_locally
        (srv : Router.Server) (req : Router.Request) :
  Router.start config = Some srv ->
  (forall s : string, Router.path req <> "/api" ++ s) ->
  Router.handle srv req = (Router.ServeLocally req, srv) /\
  forall (origin : string) (out : Router.Request),
    fst (Router.handle srv req) <> Router.Forward origin out.
Proof.
  intros Hs Hp. apply start_config_inv in Hs as ->.
  apply startsWith_false in Hp.
  unfold Router.handle. rewrite (dispatch_no_match _ Hp).
  split; [reflexivity | discriminate].
Qed.

Lemma unmatched_request_served_locally_witness :
  let req := {| Router.method := "GET"; Router.path := "/static/logo.png";
                Router.headers := ∅; Router.body := "" |} in
  Router.handle dev_server req = (Router.ServeLocally req, dev_server) /\
  forall (origin : string) (out : Router.Request),
    fst (Router.handle dev_server req) <> Router.Forward origin out.
Proof.
  intros req. apply (unmatched_request_served_locally dev_server req).
  - reflexivity.
  - intros s H. discriminate H.
Defined.

(** C4: with the target [http://localhost:8000] and [changeOrigin] set, the
    outbound request of every matched request carries the [Host] header
    [localhost:8000], whatever headers, [Host] included, came in. *)
Theorem outbound_host_is_target_host
        (srv : Router.Server) (req : Router.Request) (s : string) :
  Router.start config = Some srv ->
  Router.path req = "/api" ++ s ->
  exists out : Router.Request,
    Router.dispatch (Router.routes srv) req =
      Router.Forward "http://localhost:8000" out /\
    Router.headers out !! "Host" = Some "localhost:8000".
Proof.
  intros Hs Hp. apply start_config_inv in Hs as ->.
  eexists. split.
  - apply dispatch_match. apply startsWith_spec. now exists s.
  - cbn [Router.headers]. apply lookup_insert_eq.
Qed.

Lemma outbound_host_is_target_host_witness :
  exists out : Router.Request,
    Router.dispatch (Router.routes dev_server)
      {| Router.method := "GET"; Router.path := "/api/items/42";
         Router.headers := <["Host" := "localhost:3000"]> ∅;
         Router.body := "" |} =
      Router.Forward "http://localhost:8000" out /\
    Router.headers out !! "Host" = Some "localhost:8000".
Proof.
  apply (outbound_host_is_target_host dev_server _ "/items/42"); reflexivity.
Defined.

(** C5: the outbound request of a matched request has the method, the
    query string, the body and every header other than [Host] of the
    inbound one; its path is the inbound path rewritten, and the rewrite
    only touches the part before the query string. *)
Theorem outbound_preserves_request
        (srv : Router.Server) (req : Router.Request) (s : string) :
  Router.start config = Some srv ->
  Router.path req = "/api" ++ s ->
  exists out : Router.Request,
    Router.dispatch (Router.routes srv) req =
      Router.Forward "http://localhost:8000" out /\
    Router.method out = Router.method req /\
    Router.search (Router.path out) = Router.search (Router.path req) /\
    Router.body out = Router.body req /\
    (forall name : string,
        name <> "Host" -> Router.headers out !! name = Router.headers req !! name) /\
    Router.path out = rewrite (Router.path req) /\
    Router.pathname (Router.path out) = rewrite (Router.pathname (Router.path req)).
Proof.
  intros Hs Hp. apply start_config_inv in Hs as ->.
  eexists. split.
  - apply dispatch_match. apply startsWith_spec. now exists s.
  - cbn [Router.method Router.path Router.headers Router.body].
    repeat split.
    + now rewrite Hp, rewrite_match, search_api.
    + intros name Hn. now apply lookup_insert_ne.
    + now rewrite Hp, pathname_api, !rewrite_match.
Qed.

Lemma outbound_preserves_request_witness :
  exists out : Router.Request,
    Router.dispatch (Router.routes dev_server)
      {| Router.method := "POST"; Router.path := "/api/items?page=2";
         Router.headers := <["Accept" := "application/json"]> ∅;
         Router.body := "{}" |} =
      Router.Forward "http://localhost:8000" out /\
    Router.method out = "POST" /\
    Router.search (Router.path out) = "?page=2" /\
    Router.body out = "{}" /\
    (forall name : string,
        name <> "Host" ->
        Router.headers out !! name =
        (<["Accept" := "application/json"]> ∅ : gmap string string) !! name) /\
    Router.path out = rewrite "/api/items?page=2" /\
    Router.pathname (Router.path out) = rewrite "/api/items".
Proof.
  exact (outbound_preserves_request dev_server
           {| Router.method := "POST"; Router.path := "/api/items?page=2";
              Router.headers := <["Accept" := "application/json"]> ∅;
              Router.body := "{}" |} "/items?page=2" eq_refl eq_refl).
Defined.

(* ===================================================================== *)
(** * Further properties of the rewrite callback                          *)
(* ===================================================================== *)

(** ** Auxiliary facts *)

Lemma length_api (s : string) : String.length ("/api" ++ s) = 4 + String.length s.
Proof. now rewrite api_cons. Qed.

Lemma api_not_fixed (s : string) : "/api" ++ s <> s.
Proof.
  intros H. apply (f_equal String.length) in H. rewrite length_api in H. lia.
Qed.

Lemma api_inj (s t : string) : "/api" ++ s = "/api" ++ t -> s = t.
Proof. rewrite !api_cons. intros H. now injection H. Qed.

Lemma rewrite_cases (p : string) :
  (exists s, p = "/api" ++ s /\ rewrite p = s) \/
  (JS.startsWith p "/api" = false /\ rewrite p = p).
Proof.
  destruct (JS.startsWith p "/api") eqn:E.
  - left. apply startsWith_spec in E as [s ->]. exists s. split; [reflexivity|].
    apply rewrite_match.
  - right. split; [reflexivity | now apply rewrite_no_match].
Qed.

(** A search string no longer than [S] is looked for inside [S] only. *)
Lemma startsWith_app (k S t : string) :
  String.length k <= String.length S ->
  JS.startsWith (S ++ t) k = JS.startsWith S k.
Proof.
  revert S. induction k as [|c k IH]; intros S H; [reflexivity|].
  destruct S as [|d S]; simpl in H; [lia|].
  rewrite append_cons. simpl. rewrite IH by lia. reflexivity.
Qed.

Lemma startsWith_short (k S : string) :
  String.length S < String.length k -> JS.startsWith S k = false.
Proof.
  revert S. induction k as [|c k IH]; intros S H; simpl in H; [lia|].
  destruct S as [|d S]; [reflexivity|]. simpl in *.
  rewrite IH by lia. apply andb_false_r.
Qed.

(** ** What [rewrite] keeps and what it removes *)

(** X1: the paths [rewrite] leaves unchanged are exactly the paths that do
    not start with [/api]: a path that starts with [/api] always comes out
    different. *)
Theorem rewrite_fixed_points (p : string) :
  rewrite p = p <-> (forall s : string, p <> "/api" ++ s).
Proof.
  split.
  - intros H s ->. rewrite rewrite_match in H. symmetry in H.
    now apply api_not_fixed in H.
  - intros H. apply rewrite_no_match. now apply startsWith_false.
Qed.

(** X2: [rewrite] only ever removes a prefix, and that prefix is either
    empty or the four characters [/api]: the input is the removed prefix
    followed by the output, and the output is shorter by 4 or by 0. *)
Theorem rewrite_removes_only_prefix (p : string) :
  p = (if JS.startsWith p "/api" then "/api" else "") ++ rewrite p /\
  String.length (rewrite p) =
    String.length p - (if JS.startsWith p "/api" then 4 else 0).
Proof.
  destruct (rewrite_cases p) as [[s [-> Hr]] | [Hn Hr]]; rewrite Hr.
  - replace (JS.startsWith ("/api" ++ s) "/api") with true
      by (symmetry; apply startsWith_spec; now exists s).
    split; [reflexivity | rewrite length_api; lia].
  - rewrite Hn. split; [reflexivity | lia].
Qed.

(** X3: a path shorter than four characters, the empty path among them, is
    returned as it is. *)
Theorem rewrite_short_path (p : string) :
  String.length p < 4 -> rewrite p = p.
Proof.
  intros H. apply rewrite_no_match. now apply startsWith_short.
Qed.

Lemma rewrite_short_path_witness : rewrite "" = "".
Proof. apply (rewrite_short_path ""). simpl. lia. Defined.

(** X4: [rewrite] reads the first four characters only: whatever is
    appended to a path of at least four characters, a query string for
    instance, comes out appended to the rewritten path. *)
Theorem rewrite_passes_suffix (p t : string) :
  4 <= String.length p -> rewrite (p ++ t) = rewrite p ++ t.
Proof.
  intros H. destruct (rewrite_cases p) as [[s [-> Hr]] | [Hn Hr]]; rewrite Hr.
  - change (("/api" ++ s) ++ t) with ("/api" ++ (s ++ t)). apply rewrite_match.
  - apply rewrite_no_match. now rewrite startsWith_app.
Qed.

Lemma rewrite_passes_suffix_witness :
  rewrite ("/api/items" ++ "?page=2") = rewrite "/api/items" ++ "?page=2".
Proof. apply (rewrite_passes_suffix "/api/items" "?page=2"). simpl. lia. Defined.

(** The bound of [rewrite_passes_suffix] is needed: the appended text can
    complete the prefix of a shorter path. *)
Example rewrite_short_path_completed :
  rewrite ("/ap" ++ "i/x") = "/x" /\ rewrite "/ap" ++ "i/x" = "/api/x".
Proof. split; reflexivity. Qed.

(** X5: on the paths that start with [/api], the ones the proxy rule
    forwards, [rewrite] is injective: two different inbound paths are never
    sent upstream as the same path. *)
Theorem rewrite_injective_on_matched (p q : string) :
  JS.startsWith p "/api" = true ->
  JS.startsWith q "/api" = true ->
  rewrite p = rewrite q -> p = q.
Proof.
  intros Hp Hq H.
  apply startsWith_spec in Hp as [s ->]. apply startsWith_spec in Hq as [t ->].
  rewrite !rewrite_match in H. now subst.
Qed.

Lemma rewrite_injective_on_matched_witness : "/api/users" = "/api/users".
Proof.
  apply (rewrite_injective_on_matched "/api/users" "/api/users"); reflexivity.
Defined.

(** X6: applying [rewrite] twice gives the same as applying it once exactly
    on the paths that do not start with [/api/api]. *)
Theorem rewrite_idempotent_iff (p : string) :
  rewrite (rewrite p) = rewrite p <-> (forall s : string, p <> "/api/api" ++ s).
Proof.
  destruct (rewrite_cases p) as [[s [-> Hr]] | [Hn Hr]]; rewrite !Hr.
  - rewrite rewrite_fixed_points. split.
    + intros H u E. apply (H u).
      change ("/api/api" ++ u) with ("/api" ++ ("/api" ++ u)) in E.
      now apply api_inj in E.
    + intros H u ->. now apply (H u).
  - split; [|now intros _].
    intros _ u ->.
    now apply (proj1 (startsWith_false _ _) Hn ("/api" ++ u)).
Qed.

(** X7: [n] applications of [rewrite] undo [n] leading copies of [/api]. *)
Theorem rewrite_iterated (n : nat) (s : string) :
  Nat.iter n rewrite (Nat.iter n (String.append "/api") s) = s.
Proof.
  induction n as [|n IH]; [reflexivity|].
  rewrite Nat.iter_succ_r.
  change (Nat.iter (S n) (String.append "/api") s)
    with ("/api" ++ Nat.iter n (String.append "/api") s).
  now rewrite rewrite_match.
Qed.

(** X8: the path sent upstream starts with [/], for a path that starts with
    [/api], exactly when the path starts with [/api/]. *)
Theorem rewrite_absolute_iff (p : string) :
  JS.startsWith p "/api" = true ->
  JS.startsWith (rewrite p) "/" = JS.startsWith p "/api/".
Proof.
  intros H. apply startsWith_spec in H as [s ->].
  rewrite rewrite_match, api_cons. simpl.
  destruct s as [|c s]; [reflexivity|]. simpl.
  now rewrite !andb_true_r.
Qed.

Lemma rewrite_absolute_iff_witness :
  JS.startsWith (rewrite "/apiary") "/" = JS.startsWith "/apiary" "/api/".
Proof. apply (rewrite_absolute_iff "/apiary"). reflexivity. Defined.

(** ** The proxy table *)

(** X9: in every entry of the proxy table the key and the rewrite agree:
    on a path that starts with the key, putting the key back in front of
    the rewritten path restores the path, and the rewrite of the key
    followed by [s] is [s]. *)
Theorem proxy_key_rewrite_round_trip
        (k : string) (o : Vite.ProxyOptions) (p : string) :
  In (k, o) (Vite.proxy (Vite.server config)) ->
  JS.startsWith p k = true ->
  k ++ Vite.rewrite o p = p /\
  (forall s : string, Vite.rewrite o (k ++ s) = s).
Proof.
  intros Hin Hp. destruct Hin as [E | []]. injection E as <- <-.
  cbn [Vite.rewrite]. split.
  - apply startsWith_spec in Hp as [s ->]. now rewrite rewrite_match.
  - apply rewrite_match.
Qed.

Lemma proxy_key_rewrite_round_trip_witness :
  "/api" ++ rewrite "/api/users" = "/api/users" /\
  (forall s : string, rewrite ("/api" ++ s) = s).
Proof.
  apply (proxy_key_rewrite_round_trip "/api"
           {| Vite.target := "http://localhost:8000";
              Vite.changeOrigin := true;
              Vite.rewrite := rewrite |} "/api/users").
  - left. reflexivity.
  - reflexivity.
Defined.
